(** * hors: answer extraction and link handling (src/answer.rs, src/engine/google.rs)

    A shallow embedding of the extraction and rendering code of hors.
    Strings are [String.string]; the HTML tree built by the [select] crate is
    an inductive tree; the [select] predicates [Class], [Name] and
    [descendant] are written out as the crate evaluates them.  Code of other
    crates the repository calls (html5ever's tree builder, syntect's
    grammars and themes, reqwest's HTTP client, the url parser) is taken as
    section variables, so every theorem holds for every behaviour of these
    libraries. *)

From Stdlib Require Import String Ascii List Bool Arith Lia.
Import ListNotations.
Open Scope list_scope.
Open Scope string_scope.

(** ** String helpers (Rust [str] methods used by the source) *)

Module Str.

(** [s.starts_with(p)] *)
Fixpoint starts_with (p s : string) : bool :=
  match p, s with
  | EmptyString, _ => true
  | String a p', String b s' => Ascii.eqb a b && starts_with p' s'
  | String _ _, EmptyString => false
  end.

(** [s.contains(p)] *)
Fixpoint contains (s p : string) : bool :=
  starts_with p s ||
  match s with
  | EmptyString => false
  | String _ s' => contains s' p
  end.

(** [s.replace(from, to)] for one-character patterns. *)
Fixpoint replace_char (from to : ascii) (s : string) : string :=
  match s with
  | EmptyString => EmptyString
  | String a s' =>
      String (if Ascii.eqb a from then to else a) (replace_char from to s')
  end.

(** [s.split(c).collect()] for a one-character separator: every occurrence
    of [c] ends a piece, so [k] separators give [k+1] pieces. *)
Fixpoint split_char (c : ascii) (s : string) : list string :=
  match s with
  | EmptyString => [EmptyString]
  | String a s' =>
      let rest := split_char c s' in
      if Ascii.eqb a c then EmptyString :: rest
      else match rest with
           | h :: t => String a h :: t
           | [] => [String a EmptyString]
           end
  end.

(** [char::is_whitespace] on the ASCII range. *)
Definition is_ws (a : ascii) : bool :=
  let n := nat_of_ascii a in
  Nat.eqb n 32 || (Nat.leb 9 n && Nat.leb n 13).

(** [s.split_whitespace()]: the maximal runs of non-whitespace characters. *)
Fixpoint words_aux (cur : string) (s : string) : list string :=
  match s with
  | EmptyString => match cur with EmptyString => [] | _ => [cur] end
  | String a s' =>
      if is_ws a then
        match cur with
        | EmptyString => words_aux EmptyString s'
        | _ => cur :: words_aux EmptyString s'
        end
      else words_aux (String.append cur (String a EmptyString)) s'
  end.

Definition split_whitespace (s : string) : list string := words_aux EmptyString s.

(** [LinesWithEndings::from(s)]: lines with their terminating newline kept;
    a last line without newline is kept when non-empty. *)
Fixpoint lines_aux (cur : string) (s : string) : list string :=
  match s with
  | EmptyString => match cur with EmptyString => [] | _ => [cur] end
  | String a s' =>
      let cur' := String.append cur (String a EmptyString) in
      if Ascii.eqb a "010"%char then cur' :: lines_aux EmptyString s'
      else lines_aux cur' s'
  end.

Definition lines_with_endings (s : string) : list string := lines_aux EmptyString s.

(** [v.join(sep)] on a [Vec<String>]. *)
Fixpoint join (sep : string) (l : list string) : string :=
  match l with
  | [] => EmptyString
  | [x] => x
  | x :: l' => String.append x (String.append sep (join sep l'))
  end.

End Str.

(** ** The HTML tree of the [select] crate *)

Module Html.

#[local] Set Warnings "-register-all".

(** A node of a [select::document::Document]: an element with its local
    name and attributes, a text node, or a comment. *)
Inductive node : Type :=
| Element (name : string) (attrs : list (string * string)) (children : list node)
| Text (t : string)
| Comment (c : string).

(** A document is the forest of its top-level nodes. *)
Definition document := list node.

(** [Node::name]: [Some] for elements only. *)
Definition name (n : node) : option string :=
  match n with
  | Element nm _ _ => Some nm
  | _ => None
  end.

(** [Node::children] *)
Definition children (n : node) : list node :=
  match n with
  | Element _ _ ks => ks
  | _ => []
  end.

(** [Node::attr]: the first attribute of that name. *)
Definition attr (n : node) (key : string) : option string :=
  match n with
  | Element _ attrs _ =>
      option_map snd (find (fun kv => String.eqb (fst kv) key) attrs)
  | _ => None
  end.

(** [Node::text]: the text nodes below the node (itself included), in
    document order. *)
Fixpoint text (n : node) : string :=
  match n with
  | Element _ _ ks =>
      (fix go (l : list node) : string :=
         match l with
         | [] => EmptyString
         | k :: ks' => String.append (text k) (go ks')
         end) ks
  | Text t => t
  | Comment _ => EmptyString
  end.

(** Pre-order walk: every node with its ancestors (parent first).  This is
    the order of [Document::nodes], over which [Document::find] iterates. *)
Fixpoint walk (anc : list node) (n : node) : list (node * list node) :=
  match n with
  | Element _ _ ks =>
      (n, anc) ::
      (fix go (l : list node) : list (node * list node) :=
         match l with
         | [] => []
         | k :: ks' => app (walk (n :: anc) k) (go ks')
         end) ks
  | _ => [(n, anc)]
  end.

Definition doc_nodes (d : document) : list (node * list node) :=
  flat_map (walk []) d.

(** [Node::descendants]: the nodes strictly below [n], in pre-order, with
    their ancestors. *)
Definition descendants (anc : list node) (n : node) : list (node * list node) :=
  flat_map (walk (n :: anc)) (children n).

(** The predicates of [select::predicate] used by the source. *)
Inductive pred : Type :=
| Class (c : string)
| Name (nm : string)
| Descendant (outer inner : pred).

Fixpoint any_ancestor (p : node -> list node -> bool) (anc : list node) : bool :=
  match anc with
  | [] => false
  | a :: up => p a up || any_ancestor p up
  end.

(** [Predicate::matches]: [Class] splits the class attribute on whitespace;
    [Name] compares [Node::name]; [A.descendant(B)] matches a node matching
    [B] that has an ancestor matching [A]. *)
Fixpoint matches (p : pred) (n : node) (anc : list node) : bool :=
  match p with
  | Class c =>
      match attr n "class" with
      | Some cls => existsb (String.eqb c) (Str.split_whitespace cls)
      | None => false
      end
  | Name nm =>
      match name n with
      | Some nm' => String.eqb nm' nm
      | None => false
      end
  | Descendant outer inner =>
      matches inner n anc && any_ancestor (matches outer) anc
  end.

(** A [select::node::Node] handle: the node together with its place in the
    document (its ancestors). *)
Definition handle := (node * list node)%type.

(** [find(p)] over the nodes of a document or below a handle. *)
Definition find_all (p : pred) (ns : list handle) : list handle :=
  filter (fun h => matches p (fst h) (snd h)) ns.

(** [find(p).next()] *)
Definition find_first (p : pred) (ns : list handle) : option handle :=
  hd_error (find_all p ns).

(** [Document::find] and [Node::find] *)
Definition doc_find (p : pred) (d : document) : list handle := find_all p (doc_nodes d).
Definition node_find (p : pred) (h : handle) : list handle :=
  find_all p (descendants (snd h) (fst h)).

End Html.

(** ** Results, [?] and panics *)

Module Outcome.

(** A Rust call either returns, propagates an error through [?], or panics. *)
Inductive outcome (E A : Type) : Type :=
| Ret (a : A)
| Raise (e : E)
| Panic (msg : string).

Arguments Ret {E A} a.
Arguments Raise {E A} e.
Arguments Panic {E A} msg.

Definition bind {E A B : Type} (m : outcome E A) (k : A -> outcome E B) : outcome E B :=
  match m with
  | Ret a => k a
  | Raise e => Raise e
  | Panic msg => Panic msg
  end.

Notation "x <- m ;; k" := (bind m (fun x => k))
  (at level 61, m at next level, right associativity).

End Outcome.

Import Outcome Html.

(** ** Configuration (crate::config) *)

Inductive OutputOption : Type :=
| Links
| OnlyCode
| All.

(** [Config::option] is [option'] here: [option] is the type of optional values. *)
Record Config : Type := mkConfig {
  option' : OutputOption;
  numbers : nat;
  colorize : bool
}.

(** [const SPLITTER: &str] *)
Definition nl : string := String "010"%char EmptyString.
Definition SPLITTER : string :=
  nl ++ "^_^ ==================================================== ^_^" ++ nl ++ nl.

(** ** Sample collaborators

    Small concrete instances of the library code the section below takes
    as variables, used to run the definitions on concrete inputs. *)

Module Sample.

(** A grammar set that knows only the token ["rust"]. *)
Definition find_syntax_by_token (token : string) : option string :=
  if String.eqb token "rust" then Some "Rust" else None.

Definition find_syntax_plain_text : string := "Plain Text".

(** A highlighter whose escapes are empty: each line is passed through. *)
Definition hl_new (syntax : string) : string := syntax.
Definition hl_highlight (h : string) (line : string) : string * string := (h, line).

(** The tree of a question page: one tag, one answer whose ["post-text"]
    holds a paragraph and a code block. *)
Definition question_page_doc : document :=
  [Element "html" []
     [Element "head" [] [];
      Element "body" []
        [Element "a" [("class", "post-tag")] [Text "rust"];
         Element "div" [("class", "answer")]
           [Element "div" [("class", "post-text")]
              [Element "p" [] [Text "Use a loop."];
               Text " ";
               Element "pre" [] [Element "code" [] [Text "loop {}"]]]]]]].

(** The tree of a question page with no answer. *)
Definition unanswered_page_doc : document :=
  [Element "html" []
     [Element "head" [] [];
      Element "body" []
        [Element "div" [("class", "question")] [Element "p" [] [Text "How?"]]]]].

(** The tree of a search page whose result container holds an anchor
    without [href]. *)
Definition anchor_without_href_doc : document :=
  [Element "html" []
     [Element "head" [] [];
      Element "body" []
        [Element "div" [("class", "g")]
           [Element "div" [("class", "r")]
              [Element "a" [("name", "top")] [Text "top"]]]]]].

(** The tree of a search page with two results. *)
Definition search_page_doc : document :=
  [Element "html" []
     [Element "head" [] [];
      Element "body" []
        [Element "div" [("class", "r")]
           [Element "a" [("href", "https://stackoverflow.com/questions/1/a")] []];
         Element "div" [("class", "r")]
           [Element "a" [("href", "https://stackoverflow.com/questions/2/b")] []]]]].

(** The tree of a question page whose answer starts with a code block. *)
Definition code_answer_page_doc : document :=
  [Element "html" []
     [Element "head" [] [];
      Element "body" []
        [Element "a" [("class", "post-tag")] [Text "python"];
         Element "a" [("class", "post-tag")] [Text "rust"];
         Element "div" [("class", "answer accepted-answer")]
           [Element "pre" [] [Element "code" [] [Text "fn main() {}"]];
            Element "p" [] [Text "Then run it."]]]]].

(** Pages by their body, and the parser [Document::from] on them. *)
Definition pages : list (string * document) :=
  [("question page", question_page_doc);
   ("code answer page", code_answer_page_doc);
   ("unanswered page", unanswered_page_doc);
   ("search page", search_page_doc);
   ("search page without href", anchor_without_href_doc)].

Definition document_from (pages : list (string * document)) (page : string) : document :=
  match find (fun pd => String.eqb (fst pd) page) pages with
  | Some pd => snd pd
  | None => []
  end.

(** An HTTP client on which the first question link fails. *)
Definition fetch (link : string) : outcome string string :=
  if String.eqb link "https://stackoverflow.com/questions/1/a"
  then Raise "connection reset"
  else Ret "question page".

(** [Url::parse] on absolute [https] URLs, giving the path. *)
Fixpoint drop_host (s : string) : string :=
  match s with
  | EmptyString => "/"
  | String "/"%char _ => s
  | String _ s' => drop_host s'
  end.

Definition url_parse (s : string) : option string :=
  if Str.starts_with "https://" s then Some (drop_host (substring 8 (String.length s) s))
  else None.

Definition url_path (u : string) : string := u.
(** The only rejection of the sample parser: a link without a scheme. *)
Definition url_parse_error_debug (_ : string) : string := "RelativeUrlWithoutBase".

End Sample.

(** ** The code of src/answer.rs and src/engine/google.rs *)

Section Hors.

(** syntect: grammars looked up by token, the plain-text grammar, and the
    line highlighter [HighlightLines] with the fixed theme
    ["base16-eighties.dark"]; [hl_highlight] highlights one line, updates
    the parse state and returns the line as 24-bit terminal escapes
    ([as_24_bit_terminal_escaped(.., false)]). *)
Variable SyntaxReference : Type.
Variable find_syntax_by_token : string -> option SyntaxReference.
Variable find_syntax_plain_text : SyntaxReference.
Variable HighlightLines : Type.
Variable hl_new : SyntaxReference -> HighlightLines.
Variable hl_highlight : HighlightLines -> string -> HighlightLines * string.

(** html5ever through [Document::from]. *)
Variable Document_from : string -> document.

(** reqwest: the crate's error type, [ClientBuilder::new().cookie_store(true)
    .build()], and [client.get(link).header(USER_AGENT, user_agent).send()?
    .text()?] for the user agent drawn once per call. *)
Variable Error : Type.
Variable client_build : outcome Error unit.
Variable fetch : string -> outcome Error string.

(** url: [Url::parse] and [Url::path]. *)
Variable Url : Type.
Variable Url_parse : string -> option Url.
Variable Url_path : Url -> string.
(** The [Debug] text of the [ParseError] that [Url::parse] returns for a
    link it rejects, which [expect] appends to its message. *)
Variable Url_parse_error_debug : string -> string.

(** [fn guess_syntax] *)
Fixpoint guess_syntax (possible_tags : list string) : SyntaxReference :=
  match possible_tags with
  | [] => find_syntax_plain_text
  | tag :: rest =>
      match find_syntax_by_token tag with
      | Some result => result
      | None => guess_syntax rest
      end
  end.

(** The loop of [colorized_code]: [colorized = colorized + escaped]. *)
Fixpoint highlight_lines (h : HighlightLines) (lines : list string) : string :=
  match lines with
  | [] => EmptyString
  | line :: rest =>
      let (h', escaped) := hl_highlight h line in
      escaped ++ highlight_lines h' rest
  end.

(** [fn colorized_code] *)
Definition colorized_code (code : string) (possible_tags : list string) : string :=
  let syntax := guess_syntax possible_tags in
  highlight_lines (hl_new syntax) (Str.lines_with_endings code).

(** [fn parse_answer_instruction] *)
Definition parse_answer_instruction (answer_node : handle)
    (question_tags : list string) (should_colorize : bool) : option string :=
  match find_first (Name "pre") (descendants (snd answer_node) (fst answer_node)) with
  | Some title =>
      if should_colorize then Some (colorized_code (text (fst title)) question_tags)
      else Some (text (fst title))
  | None =>
      match find_first (Name "code") (descendants (snd answer_node) (fst answer_node)) with
      | Some code_instruction =>
          if should_colorize
          then Some (colorized_code (text (fst code_instruction)) question_tags)
          else Some (text (fst code_instruction))
      | None => None
      end
  end.

(** The [for sub_node in instruction.children()] loop of
    [parse_answer_detailed]. *)
Fixpoint format_children (question_tags : list string) (subs : list node) : string :=
  match subs with
  | [] => EmptyString
  | sub_node :: rest =>
      match name sub_node with
      | Some nm =>
          if String.eqb nm "pre" then
            (colorized_code (text sub_node) question_tags ++ nl) ++ format_children question_tags rest
          else if String.eqb nm "code" then
            colorized_code (text sub_node) question_tags ++ format_children question_tags rest
          else
            (text sub_node ++ nl ++ nl) ++ format_children question_tags rest
      | None => format_children question_tags rest
      end
  end.

(** [fn parse_answer_detailed] *)
Definition parse_answer_detailed (answer_node : handle)
    (question_tags : list string) (should_colorize : bool) : option string :=
  match find_first (Class "post-text") (descendants (snd answer_node) (fst answer_node)) with
  | Some instruction =>
      if Bool.eqb should_colorize false then Some (text (fst instruction))
      else Some (format_children question_tags (children (fst instruction)))
  | None => None
  end.

(** The message of the [panic!]: the [\n] escape, then the line break and
    the indentation inside the literal. *)
Definition parse_answer_panic : string :=
  "parse_answer shoudn't get config with OutputOption::Link." ++ nl ++ nl
  ++ "                If you get this message, please fire an issue".

(** The [question_tags] of [parse_answer]: the text of every ["post-tag"]
    element, in document order. *)
Definition collect_question_tags (doc : document) : list string :=
  map (fun tag => text (fst tag)) (doc_find (Class "post-tag") doc).

(** [fn parse_answer] *)
Definition parse_answer (page : string) (config : Config) : outcome Error (option string) :=
  let doc := Document_from page in
  let question_tags := collect_question_tags doc in
  match find_first (Class "answer") (doc_nodes doc) with
  | Some answer =>
      match option' config with
      | OnlyCode => Ret (parse_answer_instruction answer question_tags (colorize config))
      | All => Ret (parse_answer_detailed answer question_tags (colorize config))
      | Links => Panic parse_answer_panic
      end
  | None => Ret None
  end.

(** The [for _ in 0..conf.numbers()] loop of [get_detailed_answer], over
    the rest of [links_iter] and the accumulated [results]. *)
Fixpoint detailed_loop (conf : Config) (k : nat) (links_iter : list string)
    (results : list string) : outcome Error (list string) :=
  match k with
  | O => Ret results
  | S k' =>
      match links_iter with
      | [] => Ret results
      | link :: rest =>
          if negb (Str.contains link "question") then detailed_loop conf k' rest results
          else
            page <- fetch link ;;
            let title := "- Answer from " ++ link in
            answer <- parse_answer page conf ;;
            match answer with
            | Some content => detailed_loop conf k' rest (app results [title ++ nl ++ content])
            | None => detailed_loop conf k' rest (app results ["Can't get answer from " ++ link])
            end
      end
  end.

(** [fn get_detailed_answer] *)
Definition get_detailed_answer (links : list string) (conf : Config) : outcome Error string :=
  _ <- client_build ;;
  results <- detailed_loop conf (numbers conf) links [] ;;
  Ret (Str.join SPLITTER results).

(** [fn extract_question] *)
Definition extract_question (path : string) : string :=
  let splitted := Str.split_char "/"%char path in
  Str.replace_char "-"%char " "%char (last splitted EmptyString).

(** The [while] loop of [get_results_with_links_only]: its state is
    [(index, results)]; one pass of the body either finishes the loop, goes
    round again with a new state, or panics in [expect]. *)
Inductive loop_step : Type :=
| Done (out : string)
| Again (index : nat) (results : list string)
| Abort (msg : string).

Definition url_parse_panic : string :=
  "Parse url failed, if you receive this message, please fire an issue.".

Definition links_only_step (links : list string) (restricted_length : nat)
    (index : nat) (results : list string) : loop_step :=
  let length := List.length links in
  if Nat.ltb index length && Nat.ltb index restricted_length then
    let link := nth index links EmptyString in
    if negb (Str.contains link "question") then Again index results
    else
      match Url_parse link with
      | None => Abort (url_parse_panic ++ ": " ++ Url_parse_error_debug link)
      | Some url =>
          let answer := "Title - " ++ extract_question (Url_path url) ++ nl ++ link in
          Again (index + 1) (app results [answer])
      end
  else Done (Str.join SPLITTER results).

(** Runs the loop for at most [fuel] passes; [None] when the fuel runs out. *)
Fixpoint links_only_run (fuel : nat) (links : list string) (restricted_length : nat)
    (index : nat) (results : list string) : option (outcome Error string) :=
  match fuel with
  | O => None
  | S fuel' =>
      match links_only_step links restricted_length index results with
      | Done out => Some (Ret out)
      | Abort msg => Some (Panic msg)
      | Again index' results' => links_only_run fuel' links restricted_length index' results'
      end
  end.

(** [fn get_results_with_links_only], run with [fuel] passes of the loop. *)
Definition get_results_with_links_only (fuel : nat) (links : list string)
    (restricted_length : nat) : option (outcome Error string) :=
  links_only_run fuel links restricted_length 0 [].

(** [get_results_with_links_only] terminates when some number of passes
    finishes the loop. *)
Definition links_only_terminates (links : list string) (restricted_length : nat) : Prop :=
  exists fuel r, get_results_with_links_only fuel links restricted_length = Some r.

(** [fn extract_links] (src/engine/google.rs) *)
Definition extract_links (page : string) : option (list string) :=
  let doc := Document_from page in
  let target_elements := doc_find (Descendant (Class "r") (Name "a")) doc in
  let links := flat_map (fun h => match attr (fst h) "href" with
                                  | Some link => [link]
                                  | None => []
                                  end) target_elements in
  if Nat.eqb (List.length links) 0 then None else Some links.

(** [pub fn get_answers]: links-only mode goes to
    [get_results_with_links_only] (run with [fuel] passes of its loop),
    every other mode to [get_detailed_answer]. *)
Definition get_answers (fuel : nat) (links : list string) (conf : Config)
    : option (outcome Error string) :=
  match option' conf with
  | Links => get_results_with_links_only fuel links (numbers conf)
  | _ => Some (get_detailed_answer links conf)
  end.

(** The block of the detailed output made for [link]: the page of [link]
    is fetched, and the block is the answer [parse_answer] finds in it under
    its header line, or the placeholder line when it finds none. *)
Definition detailed_block_of (conf : Config) (link block : string) : Prop :=
  exists page, fetch link = Ret page /\
    match parse_answer page conf with
    | Ret (Some content) => block = ("- Answer from " ++ link) ++ nl ++ content
    | Ret None => block = "Can't get answer from " ++ link
    | _ => False
    end.

(** A block of the links-only output made for [link]. *)
Definition links_only_block_of (link block : string) : Prop :=
  exists url, Url_parse link = Some url /\
    block = "Title - " ++ extract_question (Url_path url) ++ nl ++ link.

(** The child-by-child rendering of a ["post-text"] element as the claims
    describe it: a [<pre>] child gives its highlighted text and a newline,
    a [<code>] child its highlighted text, any other element child its text
    and a blank line, and a text or comment node nothing. *)
Definition detailed_child_spec (question_tags : list string) (n : node) : string :=
  match n with
  | Element nm _ _ =>
      if String.eqb nm "pre" then colorized_code (text n) question_tags ++ nl
      else if String.eqb nm "code" then colorized_code (text n) question_tags
      else text n ++ nl ++ nl
  | Text _ | Comment _ => EmptyString
  end.

(** The number of question links of a link list. *)
Definition count_question_links (links : list string) : nat :=
  List.length (filter (fun link => Str.contains link "question") links).

Definition detailed_walk_spec (question_tags : list string) (kids : list node) : string :=
  fold_right String.append EmptyString (map (detailed_child_spec question_tags) kids).

(** ** Properties *)

(** *** Helper lemmas *)

Lemma contains_single_cons (a c : ascii) (s : string) :
  Str.contains (String a s) (String c EmptyString) = false ->
  a <> c /\ Str.contains s (String c EmptyString) = false.
Proof.
  simpl. intros H. apply orb_false_iff in H as [H1 H2].
  split; [|exact H2].
  intros ->. rewrite Ascii.eqb_refl in H1. discriminate.
Qed.

Lemma split_char_no_sep (c : ascii) (s : string) :
  Str.contains s (String c EmptyString) = false -> Str.split_char c s = [s].
Proof.
  induction s as [|a s IH]; intros H; [reflexivity|].
  apply contains_single_cons in H as [Hac Hs].
  simpl. rewrite IH by exact Hs.
  apply Ascii.eqb_neq in Hac. rewrite Hac. reflexivity.
Qed.

Lemma split_char_app_sep (c : ascii) (s t : string) :
  Str.contains s (String c EmptyString) = false ->
  Str.split_char c (s ++ String c t) = s :: Str.split_char c t.
Proof.
  induction s as [|a s IH]; intros H.
  - simpl. rewrite Ascii.eqb_refl. reflexivity.
  - apply contains_single_cons in H as [Hac Hs].
    simpl. rewrite IH by exact Hs.
    apply Ascii.eqb_neq in Hac. rewrite Hac. reflexivity.
Qed.

Lemma split_char_concat (c : ascii) (segs : list string) :
  segs <> [] ->
  Forall (fun seg => Str.contains seg (String c EmptyString) = false) segs ->
  Str.split_char c (String.concat (String c EmptyString) segs) = segs.
Proof.
  induction segs as [|s segs IH]; intros Hne Hall; [congruence|].
  inversion Hall as [|? ? Hs Hrest]; subst.
  destruct segs as [|s' segs'].
  - simpl. apply split_char_no_sep. exact Hs.
  - assert (E : String.concat (String c EmptyString) (s :: s' :: segs')
                = s ++ String c (String.concat (String c EmptyString) (s' :: segs')))
      by reflexivity.
    rewrite E, split_char_app_sep by exact Hs.
    rewrite IH by (discriminate || exact Hrest). reflexivity.
Qed.

(** Every pass of the links-only loop that starts at an in-range index
    holding a link without ["question"] goes round with the same state. *)
Lemma links_only_run_stuck (fuel : nat) (links : list string) (n index : nat)
    (results : list string) :
  index < List.length links -> index < n ->
  Str.contains (nth index links EmptyString) "question" = false ->
  links_only_run fuel links n index results = None.
Proof.
  intros Hlen Hn Hq. induction fuel as [|fuel IH]; [reflexivity|].
  simpl. unfold links_only_step.
  apply Nat.ltb_lt in Hlen, Hn. rewrite Hlen, Hn, Hq. exact IH.
Qed.

(** *** C9 *)

(** C9: [extract_question] maps a path to its last ["/"]-separated segment
    with every hyphen replaced by a space; on
    ["questions/12345/the-specific-question"] it gives
    ["the specific question"]. *)
Theorem extract_question_last_segment :
  (forall segs : list string,
     Forall (fun seg => Str.contains seg "/" = false) segs ->
     extract_question (String.concat "/" segs)
     = Str.replace_char "-"%char " "%char (last segs EmptyString)) /\
  extract_question "questions/12345/the-specific-question" = "the specific question".
Proof.
  split; [|reflexivity].
  intros segs Hall. unfold extract_question.
  destruct segs as [|s segs']; [reflexivity|].
  rewrite split_char_concat by (discriminate || exact Hall).
  reflexivity.
Qed.

(** *** C8 *)

(** C8: [guess_syntax] returns the grammar of the first tag, in list order,
    that resolves to a grammar, whatever the later tags are; when no tag
    resolves it returns the plain-text grammar (it is total: an unknown
    tag never fails the call). *)
Theorem guess_syntax_first_match (tags : list string) :
  (forall skipped tag rest r,
     tags = app skipped (tag :: rest) ->
     Forall (fun t => find_syntax_by_token t = None) skipped ->
     find_syntax_by_token tag = Some r ->
     guess_syntax tags = r) /\
  (Forall (fun t => find_syntax_by_token t = None) tags ->
   guess_syntax tags = find_syntax_plain_text).
Proof.
  split.
  - intros skipped tag rest r -> Hskip Htag.
    induction Hskip as [|t skipped Ht _ IH]; simpl.
    + rewrite Htag. reflexivity.
    + rewrite Ht. exact IH.
  - intros Hall. induction Hall as [|t tags Ht _ IH]; simpl; [reflexivity|].
    rewrite Ht. exact IH.
Qed.

(** *** C2 *)

(** C2: [get_results_with_links_only] does not terminate on a link list
    whose first in-range link has no ["question"] in it: the [continue]
    leaves [index] unchanged, so no number of passes ends the loop. *)
Theorem links_only_spins_on_non_question_link (fuel : nat) :
  get_results_with_links_only fuel ["https://stackoverflow.com/tags"] 1 = None.
Proof.
  apply links_only_run_stuck; simpl; [lia | lia | reflexivity].
Qed.

(** *** Lemmas on [find] *)

Lemma find_first_none (p : pred) (ns : list handle) :
  Forall (fun h => matches p (fst h) (snd h) = false) ns -> find_first p ns = None.
Proof.
  intros Hall. unfold find_first, find_all.
  induction Hall as [|h ns Hh _ IH]; simpl; [reflexivity|].
  rewrite Hh. exact IH.
Qed.

Lemma find_first_split (p : pred) (before : list handle) (x : handle) (after : list handle) :
  Forall (fun h => matches p (fst h) (snd h) = false) before ->
  matches p (fst x) (snd x) = true ->
  find_first p (app before (x :: after)) = Some x.
Proof.
  intros Hall Hx. unfold find_first, find_all.
  induction Hall as [|h before Hh _ IH]; simpl.
  - rewrite Hx. reflexivity.
  - rewrite Hh. exact IH.
Qed.

Lemma matches_Name_true (nm : string) (n : node) (anc : list node) :
  name n = Some nm -> matches (Name nm) n anc = true.
Proof.
  intros H. simpl. rewrite H. apply String.eqb_refl.
Qed.

Lemma matches_Name_false (nm : string) (n : node) (anc : list node) :
  name n <> Some nm -> matches (Name nm) n anc = false.
Proof.
  intros H. simpl. destruct (name n) as [nm'|]; [|reflexivity].
  apply String.eqb_neq. intros ->. apply H. reflexivity.
Qed.

Lemma Forall_name_false (nm : string) (ns : list handle) :
  Forall (fun q => name (fst q) <> Some nm) ns ->
  Forall (fun h => matches (Name nm) (fst h) (snd h) = false) ns.
Proof.
  apply Forall_impl. intros h H. apply matches_Name_false. exact H.
Qed.

Lemma format_children_walk (question_tags : list string) (kids : list node) :
  format_children question_tags kids = detailed_walk_spec question_tags kids.
Proof.
  unfold detailed_walk_spec.
  induction kids as [|k kids IH]; [reflexivity|].
  simpl. rewrite IH.
  destruct k as [nm attrs ks | t | c]; simpl; [|reflexivity|reflexivity].
  destruct (String.eqb nm "pre"); [reflexivity|].
  destruct (String.eqb nm "code"); reflexivity.
Qed.

(** *** C5 *)

(** C5: on a page with no element of class ["answer"], [parse_answer]
    returns [None], in every output mode and for both values of the
    colorize flag. *)
Theorem parse_answer_without_answer_element (page : string) (conf : Config) :
  (forall h, In h (doc_nodes (Document_from page)) ->
     matches (Class "answer") (fst h) (snd h) = false) ->
  parse_answer page conf = Ret None.
Proof.
  intros Hnone. unfold parse_answer.
  rewrite find_first_none by (apply Forall_forall; exact Hnone).
  reflexivity.
Qed.

(** *** C6 *)

(** C6: in [OnlyCode] mode, with [answer] the first ["answer"] element of
    the page, the result is the text of the first [<pre>] below it if
    there is one, else the text of the first [<code>] below it if there is
    one, else [None]; the text goes through [colorized_code] (with the
    page's tags as hints) when the colorize flag is set and is returned as
    it is otherwise. *)
Theorem parse_answer_only_code (page : string) (count : nat) (col : bool)
    (answer : handle) :
  find_first (Class "answer") (doc_nodes (Document_from page)) = Some answer ->
  let tags := collect_question_tags (Document_from page) in
  let ds := descendants (snd answer) (fst answer) in
  let render (t : string) := if col then colorized_code t tags else t in
  let result := parse_answer page (mkConfig OnlyCode count col) in
  (forall before p after,
     ds = app before (p :: after) ->
     name (fst p) = Some "pre" ->
     Forall (fun q => name (fst q) <> Some "pre") before ->
     result = Ret (Some (render (text (fst p))))) /\
  (Forall (fun q => name (fst q) <> Some "pre") ds ->
   forall before c after,
     ds = app before (c :: after) ->
     name (fst c) = Some "code" ->
     Forall (fun q => name (fst q) <> Some "code") before ->
     result = Ret (Some (render (text (fst c))))) /\
  (Forall (fun q => name (fst q) <> Some "pre") ds ->
   Forall (fun q => name (fst q) <> Some "code") ds ->
   result = Ret None).
Proof.
  intros Hans tags ds render result.
  unfold result, parse_answer. rewrite Hans. simpl option'.
  unfold parse_answer_instruction. fold ds. fold tags.
  split; [|split].
  - intros before p after Hds Hp Hbefore.
    rewrite Hds, (find_first_split _ _ _ _ (Forall_name_false _ _ Hbefore)
                    (matches_Name_true _ _ _ Hp)).
    simpl colorize. unfold render. destruct col; reflexivity.
  - intros Hnopre before c after Hds Hc Hbefore.
    rewrite find_first_none by (apply Forall_name_false; exact Hnopre).
    rewrite Hds, (find_first_split _ _ _ _ (Forall_name_false _ _ Hbefore)
                    (matches_Name_true _ _ _ Hc)).
    simpl colorize. unfold render. destruct col; reflexivity.
  - intros Hnopre Hnocode.
    rewrite find_first_none by (apply Forall_name_false; exact Hnopre).
    rewrite find_first_none by (apply Forall_name_false; exact Hnocode).
    reflexivity.
Qed.

(** *** C7 *)

(** C7: in [All] (detailed) mode, with [answer] the first ["answer"]
    element of the page and [pt] the first ["post-text"] element below it,
    the result is the flattened text of [pt] when the colorize flag is off,
    and with the flag on the child-by-child rendering of [pt]'s direct
    children given by [detailed_walk_spec]; with no ["post-text"] element
    below the answer the result is [None]. *)
Theorem parse_answer_detailed_mode (page : string) (count : nat) (answer : handle) :
  find_first (Class "answer") (doc_nodes (Document_from page)) = Some answer ->
  let tags := collect_question_tags (Document_from page) in
  let ds := descendants (snd answer) (fst answer) in
  (forall before pt after,
     ds = app before (pt :: after) ->
     matches (Class "post-text") (fst pt) (snd pt) = true ->
     Forall (fun q => matches (Class "post-text") (fst q) (snd q) = false) before ->
     parse_answer page (mkConfig All count false) = Ret (Some (text (fst pt))) /\
     parse_answer page (mkConfig All count true)
       = Ret (Some (detailed_walk_spec tags (children (fst pt))))) /\
  (Forall (fun q => matches (Class "post-text") (fst q) (snd q) = false) ds ->
   forall col, parse_answer page (mkConfig All count col) = Ret None).
Proof.
  intros Hans tags ds.
  unfold parse_answer. rewrite Hans. simpl option'.
  unfold parse_answer_detailed. fold ds. fold tags.
  split.
  - intros before pt after Hds Hpt Hbefore.
    rewrite Hds, (find_first_split _ _ _ _ Hbefore Hpt). simpl.
    rewrite format_children_walk. split; reflexivity.
  - intros Hnone col. rewrite find_first_none by exact Hnone. reflexivity.
Qed.

(** *** C4 *)

Definition has_href (h : handle) : bool :=
  match attr (fst h) "href" with
  | Some _ => true
  | None => false
  end.

Definition href_of (h : handle) : list string :=
  match attr (fst h) "href" with
  | Some link => [link]
  | None => []
  end.

Lemma hrefs_nil (ms : list handle) :
  flat_map href_of ms = [] <-> Forall (fun h => attr (fst h) "href" = None) ms.
Proof.
  induction ms as [|h ms IH]; simpl; [split; auto|].
  unfold href_of at 1. destruct (attr (fst h) "href") as [v|] eqn:E; simpl.
  - split; [discriminate|]. intros Hf. inversion Hf; congruence.
  - rewrite IH. split; [intros; constructor; auto | intros Hf; inversion Hf; auto].
Qed.

Lemma hrefs_in_order (ms : list handle) :
  Forall2 (fun h v => attr (fst h) "href" = Some v) (filter has_href ms) (flat_map href_of ms).
Proof.
  induction ms as [|h ms IH]; simpl; [constructor|].
  unfold has_href at 1, href_of at 1.
  destruct (attr (fst h) "href") as [v|] eqn:E; simpl.
  - constructor; [exact E | exact IH].
  - exact IH.
Qed.

(** C4 (as amended): [extract_links] returns [None] exactly when no anchor
    below a ["r"] element has an [href] attribute (matched anchors without
    [href] are passed over); otherwise it returns [Some] of the [href] of
    every matched anchor that has one, in document order, with nothing else
    dropped and nothing merged, and this list is never empty. *)
Theorem extract_links_hrefs (page : string) :
  let ms := doc_find (Descendant (Class "r") (Name "a")) (Document_from page) in
  (extract_links page = None <-> Forall (fun h => attr (fst h) "href" = None) ms) /\
  (forall l, extract_links page = Some l ->
     l <> [] /\ Forall2 (fun h v => attr (fst h) "href" = Some v) (filter has_href ms) l).
Proof.
  intros ms. unfold extract_links. fold ms.
  change (flat_map (fun h => match attr (fst h) "href" with
                             | Some link => [link]
                             | None => []
                             end) ms) with (flat_map href_of ms).
  split.
  - rewrite <- hrefs_nil.
    destruct (flat_map href_of ms) as [|v vs]; simpl; split; congruence.
  - intros l Hl.
    destruct (flat_map href_of ms) as [|v vs] eqn:E; simpl in Hl; [discriminate|].
    injection Hl as <-. split; [discriminate|].
    rewrite <- E. apply hrefs_in_order.
Qed.

(** *** C3 *)

Lemma detailed_loop_length (conf : Config) (k : nat) (links acc bs : list string) :
  detailed_loop conf k links acc = Ret bs ->
  List.length bs <= List.length acc + Nat.min k (count_question_links links).
Proof.
  revert links acc bs.
  induction k as [|k IH]; intros links acc bs H; simpl in H.
  - injection H as <-. lia.
  - destruct links as [|link rest].
    + injection H as <-. lia.
    + unfold count_question_links. simpl filter.
      destruct (Str.contains link "question") eqn:Eq; simpl in H.
      * destruct (fetch link) as [page|e|m]; simpl in H; try discriminate.
        destruct (parse_answer page conf) as [ans|e|m]; simpl in H; try discriminate.
        destruct ans as [content|]; apply IH in H;
          rewrite length_app in H; simpl in H |- *;
          unfold count_question_links in H; lia.
      * apply IH in H. unfold count_question_links in H. lia.
Qed.

(** C3 (as amended): the results vector that [get_detailed_answer] builds
    holds at most [min N q] blocks, where [N] is the requested count and [q]
    the number of links whose whole text (host included) contains
    ["question"], and the output is these blocks joined with the divider
    [SPLITTER]: a newline, the banner line and two newlines. *)
Theorem detailed_answer_block_bound :
  SPLITTER = String "010"%char
               ("^_^ ==================================================== ^_^"
                ++ String "010"%char (String "010"%char EmptyString)) /\
  (forall links conf out,
     get_detailed_answer links conf = Ret out ->
     exists blocks,
       detailed_loop conf (numbers conf) links [] = Ret blocks /\
       out = Str.join SPLITTER blocks /\
       List.length blocks <= Nat.min (numbers conf) (count_question_links links)).
Proof.
  split; [reflexivity|].
  intros links conf out H. unfold get_detailed_answer in H.
  destruct client_build as [[]|e|m]; simpl in H; try discriminate.
  destruct (detailed_loop conf (numbers conf) links []) as [bs|e|m] eqn:E;
    simpl in H; try discriminate.
  injection H as <-. exists bs. split; [reflexivity|]. split; [reflexivity|].
  apply detailed_loop_length in E. simpl in E. exact E.
Qed.

(** *** C1 *)

Lemma parse_answer_returns (page : string) (conf : Config) :
  option' conf <> Links -> exists ans, parse_answer page conf = Ret ans.
Proof.
  intros Hopt. unfold parse_answer.
  destruct (find_first (Class "answer") _); [|eauto].
  destruct (option' conf); [contradiction | eauto | eauto].
Qed.

Lemma detailed_loop_raises (conf : Config) (e : Error) (i : nat) :
  option' conf <> Links ->
  forall k links acc,
  i < k -> i < List.length links ->
  (forall j, j < i -> Str.contains (nth j links EmptyString) "question" = true ->
     exists page, fetch (nth j links EmptyString) = Ret page) ->
  Str.contains (nth i links EmptyString) "question" = true ->
  fetch (nth i links EmptyString) = Raise e ->
  detailed_loop conf k links acc = Raise e.
Proof.
  intros Hopt. induction i as [|i IH]; intros k links acc Hk Hlen Hbefore Hq Hf.
  - destruct k as [|k]; [lia|]. destruct links as [|link rest]; simpl in Hlen; [lia|].
    simpl in Hq, Hf |- *. rewrite Hq, Hf. reflexivity.
  - destruct k as [|k]; [lia|]. destruct links as [|link rest]; simpl in Hlen; [lia|].
    simpl in Hq, Hf. simpl.
    assert (Hrest : forall j, j < i ->
              Str.contains (nth j rest EmptyString) "question" = true ->
              exists page, fetch (nth j rest EmptyString) = Ret page)
      by (intros j Hj; apply (Hbefore (S j)); lia).
    destruct (Str.contains link "question") eqn:Eq; simpl.
    + destruct (Hbefore 0 ltac:(lia) Eq) as [page Hpage]. simpl in Hpage.
      rewrite Hpage. simpl.
      destruct (parse_answer_returns page conf Hopt) as [ans Hans].
      rewrite Hans. simpl.
      destruct ans; apply IH; auto; lia.
    + apply IH; auto; lia.
Qed.

(** C1 (as amended): a failed fetch is not isolated to its link: when
    [get_detailed_answer] (in [OnlyCode] or [All] mode) reaches a question
    link among the first [N] entries whose fetch fails, the call returns
    that error, and no block is returned for any link. *)
Theorem detailed_fetch_failure_aborts (links : list string) (conf : Config)
    (i : nat) (e : Error) :
  client_build = Ret tt ->
  option' conf <> Links ->
  i < numbers conf -> i < List.length links ->
  (forall j, j < i -> Str.contains (nth j links EmptyString) "question" = true ->
     exists page, fetch (nth j links EmptyString) = Ret page) ->
  Str.contains (nth i links EmptyString) "question" = true ->
  fetch (nth i links EmptyString) = Raise e ->
  get_detailed_answer links conf = Raise e.
Proof.
  intros Hclient Hopt Hk Hlen Hbefore Hq Hf.
  unfold get_detailed_answer. rewrite Hclient. simpl.
  rewrite (detailed_loop_raises conf e i Hopt (numbers conf) links [] Hk Hlen Hbefore Hq Hf).
  reflexivity.
Qed.

(** ** Further properties of the code *)

(** *** [extract_question] *)

Lemma contains_single_cons_false (a c : ascii) (s : string) :
  a <> c -> Str.contains s (String c EmptyString) = false ->
  Str.contains (String a s) (String c EmptyString) = false.
Proof.
  intros Hac Hs. simpl. rewrite Hs, orb_false_r, andb_true_r.
  apply Ascii.eqb_neq. congruence.
Qed.

Lemma split_char_pieces_no_sep (c : ascii) (s : string) :
  Forall (fun piece => Str.contains piece (String c EmptyString) = false)
    (Str.split_char c s).
Proof.
  induction s as [|a s IH]; simpl; [repeat constructor|].
  destruct (Ascii.eqb a c) eqn:E; [constructor; [reflexivity | exact IH]|].
  apply Ascii.eqb_neq in E.
  destruct (Str.split_char c s) as [|h t]; [repeat constructor; apply contains_single_cons_false; auto|].
  inversion IH as [|? ? Hh Ht]; subst.
  constructor; [apply contains_single_cons_false; auto | exact Ht].
Qed.

Lemma last_Forall {A : Type} (P : A -> Prop) (l : list A) (d : A) :
  Forall P l -> P d -> P (last l d).
Proof.
  intros Hl Hd. induction Hl as [|x l Hx Hl IH]; [exact Hd|].
  destruct l as [|y l]; [exact Hx | exact IH].
Qed.

Lemma replace_char_keeps_absent (from to c : ascii) (s : string) :
  to <> c -> Str.contains s (String c EmptyString) = false ->
  Str.contains (Str.replace_char from to s) (String c EmptyString) = false.
Proof.
  intros Hto. induction s as [|a s IH]; intros Hs; [reflexivity|].
  apply contains_single_cons in Hs as [Hac Hs]. simpl Str.replace_char.
  apply contains_single_cons_false; [|exact (IH Hs)].
  destruct (Ascii.eqb a from); assumption.
Qed.

Lemma replace_char_removes (from to : ascii) (s : string) :
  to <> from ->
  Str.contains (Str.replace_char from to s) (String from EmptyString) = false.
Proof.
  intros Hto. induction s as [|a s IH]; [reflexivity|].
  simpl Str.replace_char. apply contains_single_cons_false; [|exact IH].
  destruct (Ascii.eqb a from) eqn:E; [exact Hto|].
  apply Ascii.eqb_neq in E. exact E.
Qed.

(** [extract_question] never returns a title with a ["/"] or a ["-"] in
    it, whatever the path. *)
Theorem extract_question_no_slash_no_hyphen (path : string) :
  Str.contains (extract_question path) "/" = false /\
  Str.contains (extract_question path) "-" = false.
Proof.
  unfold extract_question. split.
  - apply replace_char_keeps_absent; [discriminate|].
    apply last_Forall; [apply split_char_pieces_no_sep | reflexivity].
  - apply replace_char_removes. discriminate.
Qed.

(** *** [colorized_code] *)

Lemma append_empty_r (s : string) : s ++ EmptyString = s.
Proof. induction s as [|a s IH]; simpl; [reflexivity | rewrite IH; reflexivity]. Qed.

Lemma append_assoc3 (s t u : string) : (s ++ t) ++ u = s ++ (t ++ u).
Proof. induction s as [|a s IH]; simpl; [reflexivity | rewrite IH; reflexivity]. Qed.

Lemma lines_aux_concat (cur s : string) :
  fold_right String.append EmptyString (Str.lines_aux cur s) = cur ++ s.
Proof.
  revert cur. induction s as [|a s IH]; intros cur; simpl.
  - destruct cur as [|b cur]; simpl; [reflexivity|].
    rewrite append_empty_r. reflexivity.
  - destruct (Ascii.eqb a "010"%char); simpl; rewrite IH;
      rewrite append_assoc3; reflexivity.
Qed.

(** Concatenating the lines of [LinesWithEndings] gives back the text. *)
Lemma lines_with_endings_concat (s : string) :
  fold_right String.append EmptyString (Str.lines_with_endings s) = s.
Proof. apply lines_aux_concat. Qed.

(** When the highlighter's rendering of every line is the line itself,
    [colorized_code] returns the code unchanged: the lines it cuts the code
    into, put back together, are the whole code. *)
Theorem colorized_code_passthrough (code : string) (possible_tags : list string) :
  (forall h line, snd (hl_highlight h line) = line) ->
  colorized_code code possible_tags = code.
Proof.
  intros Hid. unfold colorized_code.
  rewrite <- (lines_with_endings_concat code) at 2.
  generalize (hl_new (guess_syntax possible_tags)).
  induction (Str.lines_with_endings code) as [|line rest IH]; intros h; [reflexivity|].
  simpl. specialize (Hid h line).
  destruct (hl_highlight h line) as [h' escaped]. simpl in Hid. subst escaped.
  rewrite IH. reflexivity.
Qed.

(** *** [parse_answer] in links-only mode *)

(** *** [get_detailed_answer] and [get_answers] *)

Lemma detailed_loop_no_panic (conf : Config) (msg : string) :
  option' conf <> Links ->
  (forall link m, fetch link <> Panic m) ->
  forall k links acc, detailed_loop conf k links acc <> Panic msg.
Proof.
  intros Hopt Hfetch k. induction k as [|k IH]; intros links acc; simpl; [discriminate|].
  destruct links as [|link rest]; [discriminate|].
  destruct (negb (Str.contains link "question")); [apply IH|].
  destruct (fetch link) as [page|e|m] eqn:Ef; simpl; [|discriminate|].
  - destruct (parse_answer_returns page conf Hopt) as [ans Hans]. rewrite Hans. simpl.
    destruct ans; apply IH.
  - exfalso. exact (Hfetch link m Ef).
Qed.

(** Through [get_answers], the panic of [parse_answer] is out of reach: in
    [OnlyCode] and [All] modes the call returns or fails with an error,
    never panics, as long as the HTTP client itself does not panic. *)
Theorem get_answers_no_panic (fuel : nat) (links : list string) (conf : Config) :
  option' conf <> Links ->
  (forall m, client_build <> Panic m) ->
  (forall link m, fetch link <> Panic m) ->
  forall msg, get_answers fuel links conf <> Some (Panic msg).
Proof.
  intros Hopt Hclient Hfetch msg H. unfold get_answers in H.
  assert (Hd : get_detailed_answer links conf = Panic msg)
    by (destruct (option' conf); [contradiction | injection H as H; exact H
                                  | injection H as H; exact H]).
  unfold get_detailed_answer in Hd.
  destruct client_build as [[]|e|m'] eqn:Ec; simpl in Hd; [| discriminate |].
  - destruct (detailed_loop conf (numbers conf) links []) as [bs|e|m] eqn:El;
      simpl in Hd; try discriminate.
    injection Hd as ->. exact (detailed_loop_no_panic conf msg Hopt Hfetch _ _ _ El).
  - injection Hd as ->. exact (Hclient msg eq_refl).
Qed.

Lemma detailed_loop_blocks (conf : Config) :
  option' conf <> Links ->
  forall k links acc,
  (forall link, In link (firstn k links) -> Str.contains link "question" = true ->
     exists page, fetch link = Ret page) ->
  exists blocks,
    detailed_loop conf k links acc = Ret (app acc blocks) /\
    Forall2 (detailed_block_of conf)
      (filter (fun link => Str.contains link "question") (firstn k links)) blocks.
Proof.
  intros Hopt k. induction k as [|k IH]; intros links acc Hfetch.
  - exists []. rewrite app_nil_r. split; [reflexivity | constructor].
  - destruct links as [|link rest].
    + exists []. rewrite app_nil_r. split; [reflexivity | constructor].
    + assert (Hrest : forall l, In l (firstn k rest) -> Str.contains l "question" = true ->
                      exists page, fetch l = Ret page)
        by (intros l Hl; apply Hfetch; right; exact Hl).
      cbn [firstn filter detailed_loop].
      destruct (Str.contains link "question") eqn:Eq; cbn [negb].
      * destruct (Hfetch link (or_introl eq_refl) Eq) as [page Hpage].
        rewrite Hpage. cbn [bind].
        destruct (parse_answer_returns page conf Hopt) as [ans Hans].
        rewrite Hans. cbn [bind].
        destruct ans as [content|].
        -- destruct (IH rest (app acc [("- Answer from " ++ link) ++ nl ++ content]) Hrest)
             as [bs [Hrun Hbs]].
           exists ((("- Answer from " ++ link) ++ nl ++ content) :: bs).
           split; [rewrite Hrun, <- app_assoc; reflexivity|].
           constructor; [|exact Hbs].
           exists page. rewrite Hans. split; [exact Hpage | reflexivity].
        -- destruct (IH rest (app acc ["Can't get answer from " ++ link]) Hrest)
             as [bs [Hrun Hbs]].
           exists (("Can't get answer from " ++ link) :: bs).
           split; [rewrite Hrun, <- app_assoc; reflexivity|].
           constructor; [|exact Hbs].
           exists page. rewrite Hans. split; [exact Hpage | reflexivity].
      * destruct (IH rest acc Hrest) as [bs [Hrun Hbs]].
        exists bs. split; assumption.
Qed.

(** When every question link among the first [N] entries fetches, the
    detailed output has exactly one block per such question link, in link
    order, made from that link's fetched page: the answer [parse_answer]
    finds there under ["- Answer from <link>"], or the line
    ["Can't get answer from <link>"] when it finds none.  A non-question link among the first
    [N] entries uses up one of the [N] slots without giving a block. *)
Theorem detailed_answer_one_block_per_question_link (links : list string) (conf : Config) :
  client_build = Ret tt ->
  option' conf <> Links ->
  (forall link, In link (firstn (numbers conf) links) ->
     Str.contains link "question" = true -> exists page, fetch link = Ret page) ->
  exists blocks,
    get_detailed_answer links conf = Ret (Str.join SPLITTER blocks) /\
    Forall2 (detailed_block_of conf)
      (filter (fun link => Str.contains link "question") (firstn (numbers conf) links))
      blocks.
Proof.
  intros Hclient Hopt Hfetch.
  destruct (detailed_loop_blocks conf Hopt (numbers conf) links [] Hfetch) as [bs [Hrun Hbs]].
  exists bs. split; [|exact Hbs].
  unfold get_detailed_answer. rewrite Hclient. simpl. rewrite Hrun. reflexivity.
Qed.

(** *** [get_results_with_links_only] on question links *)

Lemma skipn_nth_cons {A : Type} (l : list A) (i : nat) (d : A) :
  i < List.length l -> skipn i l = nth i l d :: skipn (S i) l.
Proof.
  revert i. induction l as [|x l IH]; intros i Hi; simpl in Hi; [lia|].
  destruct i as [|i]; [reflexivity|]. simpl. apply IH. lia.
Qed.

Lemma nth_firstn_lt {A : Type} (l : list A) (n i : nat) (d : A) :
  i < n -> nth i (firstn n l) d = nth i l d.
Proof.
  intros Hi. rewrite nth_firstn. apply Nat.ltb_lt in Hi. rewrite Hi. reflexivity.
Qed.

Lemma links_only_run_blocks (links : list string) (n : nat) :
  (forall link, In link (firstn n links) ->
     Str.contains link "question" = true /\ Url_parse link <> None) ->
  forall d index results, index + d = Nat.min n (List.length links) ->
  exists blocks,
    links_only_run (S d) links n index results
    = Some (Ret (Str.join SPLITTER (app results blocks))) /\
    Forall2 links_only_block_of (skipn index (firstn n links)) blocks.
Proof.
  intros Hok d. induction d as [|d IH]; intros index results Hi.
  - exists []. rewrite app_nil_r. split.
    + simpl. unfold links_only_step.
      destruct (Nat.ltb index (List.length links) && Nat.ltb index n) eqn:E;
        [apply andb_true_iff in E as [E1 E2]; apply Nat.ltb_lt in E1, E2; lia|].
      reflexivity.
    + rewrite skipn_all2; [constructor|]. rewrite length_firstn. lia.
  - assert (Hlt : index < List.length links /\ index < n) by lia.
    destruct Hlt as [Hlen Hn].
    assert (Hin : In (nth index links EmptyString) (firstn n links)).
    { rewrite <- (nth_firstn_lt links n index EmptyString Hn). apply nth_In.
      rewrite length_firstn. lia. }
    destruct (Hok _ Hin) as [Hq Hp].
    destruct (Url_parse (nth index links EmptyString)) as [url|] eqn:Eu; [|congruence].
    set (block := "Title - " ++ extract_question (Url_path url) ++ nl
                  ++ nth index links EmptyString).
    destruct (IH (index + 1) (app results [block])) as [bs [Hrun Hbs]]; [lia|].
    exists (block :: bs). split.
    + change (links_only_run (S (S d)) links n index results)
        with (match links_only_step links n index results with
              | Done out => Some (Ret out)
              | Abort msg => Some (Panic msg)
              | Again index' results' => links_only_run (S d) links n index' results'
              end).
      unfold links_only_step.
      apply Nat.ltb_lt in Hlen, Hn. cbv zeta. rewrite Hlen, Hn, Hq, Eu. cbn [andb negb].
      unfold block in Hrun. rewrite Hrun, <- app_assoc. reflexivity.
    + rewrite (skipn_nth_cons _ index EmptyString) by (rewrite length_firstn; lia).
      rewrite nth_firstn_lt by exact Hn.
      constructor; [exists url; split; [exact Eu | reflexivity]|].
      rewrite Nat.add_1_r in Hbs. exact Hbs.
Qed.

(** When each of the first [N] links contains ["question"] and parses as
    a URL, the links-only loop terminates, with one block
    ["Title - <title>\n<link>"] per link among the first [N], in order
    (fewer than [N] blocks when the list is shorter), joined by
    [SPLITTER]. *)
Theorem links_only_question_links_blocks (links : list string) (n : nat) :
  (forall link, In link (firstn n links) ->
     Str.contains link "question" = true /\ Url_parse link <> None) ->
  exists fuel blocks,
    get_results_with_links_only fuel links n = Some (Ret (Str.join SPLITTER blocks)) /\
    Forall2 links_only_block_of (firstn n links) blocks.
Proof.
  intros Hok.
  destruct (links_only_run_blocks links n Hok (Nat.min n (List.length links)) 0 [])
    as [bs [Hrun Hbs]]; [reflexivity|].
  exists (S (Nat.min n (List.length links))), bs. split; [exact Hrun | exact Hbs].
Qed.

End Hors.

(** ** Rendering without colors *)

Section WithoutColors.

Variables (Syn1 Syn2 HL1 HL2 : Type).
Variables (find1 : string -> option Syn1) (find2 : string -> option Syn2).
Variables (plain1 : Syn1) (plain2 : Syn2).
Variables (new1 : Syn1 -> HL1) (new2 : Syn2 -> HL2).
Variables (hl1 : HL1 -> string -> HL1 * string) (hl2 : HL2 -> string -> HL2 * string).
Variable Document_from : string -> document.
Variable Error : Type.

(** With the colorize flag off, [parse_answer] never calls the highlighter:
    its result is the same for any two grammar sets and highlighters, in
    every output mode. *)
Theorem parse_answer_without_colors_ignores_highlighter (page : string) (conf : Config) :
  colorize conf = false ->
  parse_answer Syn1 find1 plain1 HL1 new1 hl1 Document_from Error page conf
  = parse_answer Syn2 find2 plain2 HL2 new2 hl2 Document_from Error page conf.
Proof.
  intros Hcol. unfold parse_answer. rewrite Hcol.
  destruct (find_first (Class "answer") _) as [answer|]; [|reflexivity].
  destruct (option' conf); [reflexivity | |].
  - unfold parse_answer_instruction.
    destruct (find_first (Name "pre") _); [reflexivity|].
    destruct (find_first (Name "code") _); reflexivity.
  - unfold parse_answer_detailed.
    destruct (find_first (Class "post-text") _); reflexivity.
Qed.

End WithoutColors.

(** ** Witnesses and counterexamples *)

Lemma extract_question_last_segment_witness :
  Forall (fun seg => Str.contains seg "/" = false)
    ["questions"; "12345"; "the-specific-question"] /\
  extract_question (String.concat "/" ["questions"; "12345"; "the-specific-question"])
  = "the specific question".
Proof.
  assert (H : Forall (fun seg => Str.contains seg "/" = false)
                ["questions"; "12345"; "the-specific-question"])
    by (repeat constructor).
  split; [exact H|].
  rewrite (proj1 extract_question_last_segment _ H). reflexivity.
Defined.

Lemma guess_syntax_first_match_witness :
  guess_syntax string Sample.find_syntax_by_token Sample.find_syntax_plain_text
    ["python"; "rust"] = "Rust" /\
  guess_syntax string Sample.find_syntax_by_token Sample.find_syntax_plain_text
    ["unknown-nonsense-tag"] = Sample.find_syntax_plain_text.
Proof.
  split.
  - apply (proj1 (guess_syntax_first_match string Sample.find_syntax_by_token
                    Sample.find_syntax_plain_text ["python"; "rust"])
             ["python"] "rust" [] "Rust");
      [reflexivity | repeat constructor | reflexivity].
  - apply (proj2 (guess_syntax_first_match string Sample.find_syntax_by_token
                    Sample.find_syntax_plain_text ["unknown-nonsense-tag"])).
    repeat constructor.
Defined.

(** C10: the panic on a question link that [Url::parse] rejects is only
    reached when no link without ["question"] comes before it.  Alone,
    ["question"] panics with the message of [expect]; behind the link
    ["https://stackoverflow.com/tags"] the [continue] that skips
    [index += 1] keeps the loop on that link, and no number of passes
    panics or finishes. *)
Lemma links_only_spins_before_unparsable_question_link :
  Str.contains "question" "question" = true /\
  Sample.url_parse "question" = None /\
  get_results_with_links_only string string Sample.url_parse Sample.url_path
    Sample.url_parse_error_debug 1 ["question"] 1
  = Some (Panic (url_parse_panic ++ ": " ++ "RelativeUrlWithoutBase")) /\
  (forall fuel,
     get_results_with_links_only string string Sample.url_parse Sample.url_path
       Sample.url_parse_error_debug fuel ["https://stackoverflow.com/tags"; "question"] 2
     = None).
Proof.
  split; [reflexivity|]. split; [reflexivity|]. split; [vm_compute; reflexivity|].
  intros fuel. unfold get_results_with_links_only.
  apply links_only_run_stuck; [simpl; lia | lia | reflexivity].
Qed.

(** C1: the first of two question links fails to fetch and the second
    fetches; the whole call is the error, with no block for either link. *)
Lemma detailed_fetch_failure_cex :
  Sample.fetch "https://stackoverflow.com/questions/2/b" = Ret "question page" /\
  get_detailed_answer string Sample.find_syntax_by_token Sample.find_syntax_plain_text
    string Sample.hl_new Sample.hl_highlight (Sample.document_from Sample.pages)
    string (Ret tt) Sample.fetch
    ["https://stackoverflow.com/questions/1/a"; "https://stackoverflow.com/questions/2/b"]
    (mkConfig All 2 false)
  = Raise "connection reset".
Proof.
  split; vm_compute; reflexivity.
Qed.

Lemma detailed_fetch_failure_aborts_witness :
  get_detailed_answer string Sample.find_syntax_by_token Sample.find_syntax_plain_text
    string Sample.hl_new Sample.hl_highlight (Sample.document_from Sample.pages)
    string (Ret tt) Sample.fetch
    ["https://stackoverflow.com/questions/1/a"; "https://stackoverflow.com/questions/2/b"]
    (mkConfig All 2 false)
  = Raise "connection reset".
Proof.
  apply (detailed_fetch_failure_aborts string Sample.find_syntax_by_token
           Sample.find_syntax_plain_text string Sample.hl_new Sample.hl_highlight
           (Sample.document_from Sample.pages) string (Ret tt) Sample.fetch
           ["https://stackoverflow.com/questions/1/a"; "https://stackoverflow.com/questions/2/b"]
           (mkConfig All 2 false) 0 "connection reset");
    [reflexivity | discriminate | simpl; lia | simpl; lia | intros j Hj; lia
    | reflexivity | reflexivity].
Defined.

Lemma detailed_answer_block_bound_witness :
  exists out,
    get_detailed_answer string Sample.find_syntax_by_token Sample.find_syntax_plain_text
      string Sample.hl_new Sample.hl_highlight (Sample.document_from Sample.pages)
      string (Ret tt) Sample.fetch
      ["https://stackoverflow.com/questions/2/b"; "https://stackoverflow.com/tags";
       "https://stackoverflow.com/questions/3/c"]
      (mkConfig All 3 true) = Ret out /\
    exists blocks,
      detailed_loop string Sample.find_syntax_by_token Sample.find_syntax_plain_text
        string Sample.hl_new Sample.hl_highlight (Sample.document_from Sample.pages)
        string Sample.fetch (mkConfig All 3 true) 3
        ["https://stackoverflow.com/questions/2/b"; "https://stackoverflow.com/tags";
         "https://stackoverflow.com/questions/3/c"] [] = Ret blocks /\
      out = Str.join SPLITTER blocks /\
      List.length blocks <= Nat.min 3 (count_question_links
        ["https://stackoverflow.com/questions/2/b"; "https://stackoverflow.com/tags";
         "https://stackoverflow.com/questions/3/c"]).
Proof.
  destruct (get_detailed_answer string Sample.find_syntax_by_token
              Sample.find_syntax_plain_text string Sample.hl_new Sample.hl_highlight
              (Sample.document_from Sample.pages) string (Ret tt) Sample.fetch
              ["https://stackoverflow.com/questions/2/b"; "https://stackoverflow.com/tags";
               "https://stackoverflow.com/questions/3/c"]
              (mkConfig All 3 true)) as [out|e|m] eqn:H;
    [| vm_compute in H; discriminate H | vm_compute in H; discriminate H].
  exists out. split; [reflexivity|].
  exact (proj2 (detailed_answer_block_bound string Sample.find_syntax_by_token
                  Sample.find_syntax_plain_text string Sample.hl_new Sample.hl_highlight
                  (Sample.document_from Sample.pages) string (Ret tt) Sample.fetch)
           _ (mkConfig All 3 true) out H).
Defined.

(** C3: a link whose host, not its path, holds ["question"]: the path has
    no ["question"], so no link counts as a question link in the claim's
    sense, yet with [N = 1] the results vector holds one block. *)
Lemma detailed_answer_host_question_cex :
  Sample.url_parse "https://questions.example.com/x" = Some "/x" /\
  Str.contains (Sample.url_path "/x") "question" = false /\
  exists blocks,
    detailed_loop string Sample.find_syntax_by_token Sample.find_syntax_plain_text
      string Sample.hl_new Sample.hl_highlight (Sample.document_from Sample.pages)
      string Sample.fetch (mkConfig All 1 false) 1 ["https://questions.example.com/x"] []
    = Ret blocks /\
    get_detailed_answer string Sample.find_syntax_by_token Sample.find_syntax_plain_text
      string Sample.hl_new Sample.hl_highlight (Sample.document_from Sample.pages)
      string (Ret tt) Sample.fetch ["https://questions.example.com/x"] (mkConfig All 1 false)
    = Ret (Str.join SPLITTER blocks) /\
    List.length blocks = 1.
Proof.
  split; [reflexivity|]. split; [vm_compute; reflexivity|].
  eexists. split; [vm_compute; reflexivity|]. split; vm_compute; reflexivity.
Qed.

(** C4: a result container whose anchor has no [href]: one element
    matches, yet [extract_links] returns [None]. *)
Lemma extract_links_anchor_without_href_cex :
  doc_find (Descendant (Class "r") (Name "a"))
    (Sample.document_from Sample.pages "search page without href") <> [] /\
  extract_links (Sample.document_from Sample.pages) "search page without href" = None.
Proof.
  split; [vm_compute; discriminate | reflexivity].
Qed.

Lemma extract_links_hrefs_witness :
  extract_links (Sample.document_from Sample.pages) "search page"
  = Some ["https://stackoverflow.com/questions/1/a"; "https://stackoverflow.com/questions/2/b"] /\
  Forall2 (fun h v => attr (fst h) "href" = Some v)
    (filter has_href (doc_find (Descendant (Class "r") (Name "a"))
                        (Sample.document_from Sample.pages "search page")))
    ["https://stackoverflow.com/questions/1/a"; "https://stackoverflow.com/questions/2/b"].
Proof.
  assert (H : extract_links (Sample.document_from Sample.pages) "search page"
              = Some ["https://stackoverflow.com/questions/1/a";
                      "https://stackoverflow.com/questions/2/b"]) by reflexivity.
  split; [exact H|].
  exact (proj2 (proj2 (extract_links_hrefs (Sample.document_from Sample.pages) "search page") _ H)).
Defined.

Lemma parse_answer_without_answer_element_witness :
  parse_answer string Sample.find_syntax_by_token Sample.find_syntax_plain_text
    string Sample.hl_new Sample.hl_highlight (Sample.document_from Sample.pages)
    string "unanswered page" (mkConfig All 1 true) = Ret None.
Proof.
  apply parse_answer_without_answer_element.
  intros h Hin. vm_compute in Hin.
  repeat (destruct Hin as [<- | Hin]; [reflexivity|]). destruct Hin.
Defined.

Lemma parse_answer_only_code_witness :
  exists answer,
    find_first (Class "answer")
      (doc_nodes (Sample.document_from Sample.pages "code answer page")) = Some answer /\
    parse_answer string Sample.find_syntax_by_token Sample.find_syntax_plain_text
      string Sample.hl_new Sample.hl_highlight (Sample.document_from Sample.pages)
      string "code answer page" (mkConfig OnlyCode 1 false) = Ret (Some "fn main() {}").
Proof.
  destruct (find_first (Class "answer")
              (doc_nodes (Sample.document_from Sample.pages "code answer page")))
    as [a|] eqn:Ha; [|vm_compute in Ha; discriminate].
  exists a. split; [reflexivity|].
  pose proof (parse_answer_only_code string Sample.find_syntax_by_token
                Sample.find_syntax_plain_text string Sample.hl_new Sample.hl_highlight
                (Sample.document_from Sample.pages) string "code answer page" 1 false a Ha)
    as T.
  cbv zeta in T. destruct T as [H1 _].
  pose proof Ha as Ea. vm_compute in Ea. injection Ea as Ea. subst a.
  destruct (descendants _ _) as [|p after] eqn:Hds in H1; [vm_compute in Hds; discriminate|].
  pose proof Hds as Ep. vm_compute in Ep. injection Ep as Ep Eafter. subst p after.
  rewrite (H1 [] _ _ Hds); [reflexivity | reflexivity | constructor].
Defined.

Lemma parse_answer_detailed_mode_witness :
  exists answer,
    find_first (Class "answer")
      (doc_nodes (Sample.document_from Sample.pages "question page")) = Some answer /\
    parse_answer string Sample.find_syntax_by_token Sample.find_syntax_plain_text
      string Sample.hl_new Sample.hl_highlight (Sample.document_from Sample.pages)
      string "question page" (mkConfig All 1 false) = Ret (Some "Use a loop. loop {}") /\
    parse_answer string Sample.find_syntax_by_token Sample.find_syntax_plain_text
      string Sample.hl_new Sample.hl_highlight (Sample.document_from Sample.pages)
      string "question page" (mkConfig All 1 true)
    = Ret (Some ("Use a loop." ++ nl ++ nl ++ "loop {}" ++ nl)).
Proof.
  destruct (find_first (Class "answer")
              (doc_nodes (Sample.document_from Sample.pages "question page")))
    as [a|] eqn:Ha; [|vm_compute in Ha; discriminate].
  exists a. split; [reflexivity|].
  pose proof (parse_answer_detailed_mode string Sample.find_syntax_by_token
                Sample.find_syntax_plain_text string Sample.hl_new Sample.hl_highlight
                (Sample.document_from Sample.pages) string "question page" 1 a Ha)
    as T.
  cbv zeta in T. destruct T as [H1 _].
  pose proof Ha as Ea. vm_compute in Ea. injection Ea as Ea. subst a.
  destruct (descendants _ _) as [|pt after] eqn:Hds in H1; [vm_compute in Hds; discriminate|].
  pose proof Hds as Ep. vm_compute in Ep. injection Ep as Ep Eafter. subst pt after.
  destruct (H1 [] _ _ Hds) as [Hoff Hon]; [reflexivity | constructor |].
  rewrite Hoff, Hon. split; reflexivity.
Defined.

Lemma colorized_code_passthrough_witness :
  colorized_code string Sample.find_syntax_by_token Sample.find_syntax_plain_text
    string Sample.hl_new Sample.hl_highlight ("let x = 1;" ++ nl ++ "x") ["rust"]
  = "let x = 1;" ++ nl ++ "x".
Proof.
  apply colorized_code_passthrough. intros h line. reflexivity.
Defined.

Lemma get_answers_no_panic_witness :
  get_answers string Sample.find_syntax_by_token Sample.find_syntax_plain_text
    string Sample.hl_new Sample.hl_highlight (Sample.document_from Sample.pages)
    string (Ret tt) Sample.fetch string Sample.url_parse Sample.url_path
        Sample.url_parse_error_debug 0
    ["https://stackoverflow.com/questions/1/a"; "https://stackoverflow.com/questions/2/b"]
    (mkConfig All 2 true) <> Some (Panic parse_answer_panic).
Proof.
  apply get_answers_no_panic;
    [discriminate | intros m; discriminate
    | intros link m; unfold Sample.fetch; destruct (String.eqb _ _); discriminate].
Defined.

Lemma detailed_answer_one_block_per_question_link_witness :
  exists blocks,
    get_detailed_answer string Sample.find_syntax_by_token Sample.find_syntax_plain_text
      string Sample.hl_new Sample.hl_highlight (Sample.document_from Sample.pages)
      string (Ret tt) Sample.fetch
      ["https://stackoverflow.com/questions/2/b"; "https://stackoverflow.com/tags";
       "https://stackoverflow.com/questions/3/c"]
      (mkConfig All 2 true) = Ret (Str.join SPLITTER blocks) /\
    Forall2 (detailed_block_of string Sample.find_syntax_by_token Sample.find_syntax_plain_text
               string Sample.hl_new Sample.hl_highlight (Sample.document_from Sample.pages)
               string Sample.fetch (mkConfig All 2 true))
      (filter (fun link => Str.contains link "question")
         (firstn 2 ["https://stackoverflow.com/questions/2/b"; "https://stackoverflow.com/tags";
                    "https://stackoverflow.com/questions/3/c"]))
      blocks.
Proof.
  apply detailed_answer_one_block_per_question_link; [reflexivity | discriminate |].
  intros link Hin Hq. simpl in Hin.
  destruct Hin as [<- | [<- | []]]; [eexists; reflexivity | vm_compute in Hq; discriminate].
Defined.

Lemma links_only_question_links_blocks_witness :
  exists fuel blocks,
    get_results_with_links_only string string Sample.url_parse Sample.url_path
        Sample.url_parse_error_debug fuel
      ["https://stackoverflow.com/questions/1/how-to-write-unit-tests";
       "https://stackoverflow.com/questions/2/b"] 5
    = Some (Ret (Str.join SPLITTER blocks)) /\
    Forall2 (links_only_block_of string Sample.url_parse Sample.url_path)
      (firstn 5 ["https://stackoverflow.com/questions/1/how-to-write-unit-tests";
                 "https://stackoverflow.com/questions/2/b"]) blocks.
Proof.
  apply links_only_question_links_blocks.
  intros link Hin. simpl in Hin.
  destruct Hin as [<- | [<- | []]]; (split; [reflexivity | discriminate]).
Defined.

Lemma parse_answer_without_colors_ignores_highlighter_witness :
  parse_answer string Sample.find_syntax_by_token Sample.find_syntax_plain_text
    string Sample.hl_new Sample.hl_highlight (Sample.document_from Sample.pages)
    string "question page" (mkConfig All 1 false)
  = parse_answer unit (fun _ => None) tt unit (fun _ => tt)
      (fun h line => (h, "*" ++ line)) (Sample.document_from Sample.pages)
      string "question page" (mkConfig All 1 false).
Proof.
  apply parse_answer_without_colors_ignores_highlighter. reflexivity.
Defined.
